(** * selenium-proxy: the fetch handler of [main.py], embedded and verified

    [main.py] is a FastAPI application with three GET routes.  The fetch
    route validates its [url] query parameter, opens a remote Chrome session
    on a Selenium hub, navigates, waits for the [body] element, returns the
    page source and quits the session in a [finally] block.

    The embedding is shallow.  Python exceptions are a [Raise] result, the
    remote hub is a table of live sessions ([gmap]) together with a trace of
    the calls made to it, and the behaviour of the hub during one request is
    a [Backend] record giving the outcome of each remote call.  The handler
    is written in a state-and-exception monad so that it can be read next
    to the source. *)

From Stdlib Require Import ZArith.
From stdpp Require Import gmap strings list fin_maps.

Local Open Scope Z_scope.
Local Open Scope string_scope.

(** ** Exceptions

    Only the classes that [main.py] names: [TimeoutException] derives from
    [WebDriverException], which derives from [Exception]; FastAPI's
    [HTTPException] derives from [Exception] too.  Every failure of a remote
    call is an instance of [Exception]; interpreter-level signals
    (KeyboardInterrupt, SystemExit) are outside this model. *)
Inductive exn : Type :=
| TimeoutException (msg : string)
| WebDriverException (msg : string)
| HTTPException (status_code : Z) (detail : string)
| OtherException (msg : string).

(** [isinstance(e, TimeoutException)] *)
Definition is_TimeoutException (e : exn) : bool :=
  match e with TimeoutException _ => true | _ => false end.

(** [isinstance(e, WebDriverException)]: the timeout is a subclass. *)
Definition is_WebDriverException (e : exn) : bool :=
  match e with
  | TimeoutException _ | WebDriverException _ => true
  | _ => false
  end.

(** ** The remote hub *)

(** [chrome_options]: command-line arguments and experimental options. *)
Record Options : Type := {
  arguments : list string;
  experimental_options : list (string * list (string * Z))
}.

(** What the hub keeps for one live session. *)
Record Session : Type := {
  page_load_timeout : option Z
}.

(** A [webdriver.Remote] object: a handle on one remote session. *)
Record WebDriver : Type := {
  session_id : nat
}.

Inductive level : Type := INFO | WARNING | ERROR.

(** Calls observed during a run, newest first. *)
Inductive event : Type :=
| EvLog (lvl : level) (text : string) (arg : exn + string)
| EvRemote (command_executor : string) (opts : Options)
| EvSessionCreated (sid : nat)
| EvSetPageLoadTimeout (sid : nat) (seconds : Z)
| EvGet (sid : nat) (url : string) (timeout_in_force : option Z)
| EvWaitUntil (sid : nat) (timeout : Z) (by_ : string) (value : string)
| EvPageSource (sid : nat)
| EvQuit (sid : nat).

Record World : Type := {
  sessions : gmap nat Session;
  trace : list event
}.

(** The outcome of each remote call of one request; [None] is a normal
    return, [Some e] raises [e]. *)
Record Backend : Type := {
  be_new_session : string -> Options -> option exn;
  be_set_page_load_timeout : Z -> option exn;
  be_get : string -> option exn;
  be_until : Z -> string -> string -> option exn;
  be_page_source : exn + string;
  be_quit : option exn
}.

(** ** State and exceptions *)

Inductive result (A : Type) : Type :=
| Return (a : A)
| Raise (e : exn).
Arguments Return {A} a.
Arguments Raise {A} e.

Definition M (S A : Type) : Type := S -> result A * S.

Definition ret {S A} (a : A) : M S A := fun s => (Return a, s).

Definition raise {S A} (e : exn) : M S A := fun s => (Raise e, s).

Definition bind {S A B} (m : M S A) (k : A -> M S B) : M S B :=
  fun s =>
    match m s with
    | (Return a, s') => k a s'
    | (Raise e, s') => (Raise e, s')
    end.

(** [try: m  except ...: h e] *)
Definition try_except {S A} (m : M S A) (h : exn -> M S A) : M S A :=
  fun s =>
    match m s with
    | (Return a, s') => (Return a, s')
    | (Raise e, s') => h e s'
    end.

(** [try: m  finally: f]: [f] always runs; an exception of [f] replaces the
    pending outcome, otherwise the outcome of [m] stands. *)
Definition try_finally {S A} (m : M S A) (f : M S unit) : M S A :=
  fun s =>
    match m s with
    | (r, s') =>
        match f s' with
        | (Return _, s'') => (r, s'')
        | (Raise e, s'') => (Raise e, s'')
        end
    end.

Declare Scope monad_scope.
Delimit Scope monad_scope with monad.
Notation "x <- m ;; k" := (bind m (fun x => k))
  (at level 100, m at level 99, k at level 200, right associativity)
  : monad_scope.
Notation "m ;; k" := (bind m (fun _ => k))
  (at level 100, k at level 200, right associativity) : monad_scope.
Local Open Scope monad_scope.

Definition emit (ev : event) : M World unit :=
  fun w => (Return tt, {| sessions := sessions w; trace := ev :: trace w |}).

Definition outcome (o : option exn) : M World unit :=
  match o with
  | None => ret tt
  | Some e => raise e
  end.

(** ** Strings *)

(** [not s] on a Python string. *)
Definition is_empty (s : string) : bool :=
  match s with
  | EmptyString => true
  | String _ _ => false
  end.

(** [s.startswith(p)] *)
Definition startswith (s p : string) : bool := String.prefix p s.

(** [p in s] *)
Fixpoint contains (s p : string) : bool :=
  String.prefix p s ||
  match s with
  | EmptyString => false
  | String _ s' => contains s' p
  end.

(** ** HTTP responses *)

Inductive Body : Type :=
| Html (content : string)
| Detail (detail : string)
| Dict (items : list (string * string))
| ValidationError (loc : list string)
| PlainText (text : string).

Record Response : Type := {
  status : Z;
  body : Body
}.

(** ** The application *)

Module Main.
Section App.

(** [os.getenv("SELENIUM_HUB_URL", "http://localhost:4444/wd/hub")] *)
Variable SELENIUM_HUB_URL : string.
Variable be : Backend.

Definition logger_info (text : string) (arg : exn + string) : M World unit :=
  emit (EvLog INFO text arg).
Definition logger_warning (text : string) (arg : exn + string) : M World unit :=
  emit (EvLog WARNING text arg).
Definition logger_error (text : string) (arg : exn + string) : M World unit :=
  emit (EvLog ERROR text arg).

Definition chrome_options : Options := {|
  arguments :=
    [ "--no-sandbox"; "--disable-dev-shm-usage"; "--disable-gpu";
      "--window-size=1920,1080";
      "--user-agent=Mozilla/5.0 (Windows NT 10.0; Win64; x64) AppleWebKit/537.36 (KHTML, like Gecko) Chrome/91.0.4472.124 Safari/537.36" ];
  experimental_options :=
    [ ("prefs",
       [ ("profile.managed_default_content_settings.images", 2);
         ("profile.managed_default_content_settings.stylesheets", 2) ]) ]
|}.

(** [webdriver.Remote(command_executor=..., desired_capabilities=...,
    options=...)]: asks the hub for a new session.  The capabilities of
    lines 44-45 are computed from [chrome_options] and add nothing to it.
    On success the hub registers a session under an id that is not in
    use. *)
Definition webdriver_Remote (command_executor : string) (opts : Options)
  : M World WebDriver :=
  emit (EvRemote command_executor opts) ;;
  outcome (be_new_session be command_executor opts) ;;
  fun w =>
    let sid := fresh (dom (sessions w)) in
    (Return {| session_id := sid |},
     {| sessions := <[sid := {| page_load_timeout := None |}]> (sessions w);
        trace := EvSessionCreated sid :: trace w |}).

(** [driver.set_page_load_timeout(seconds)] *)
Definition set_page_load_timeout (driver : WebDriver) (seconds : Z)
  : M World unit :=
  emit (EvSetPageLoadTimeout (session_id driver) seconds) ;;
  outcome (be_set_page_load_timeout be seconds) ;;
  fun w =>
    (Return tt,
     {| sessions :=
          alter (fun _ => {| page_load_timeout := Some seconds |})
                (session_id driver) (sessions w);
        trace := trace w |}).

(** [driver.get(url)]: the event records the page-load timeout the session
    has at that moment. *)
Definition driver_get (driver : WebDriver) (url : string) : M World unit :=
  (fun w =>
     emit (EvGet (session_id driver) url
                 (sessions w !! session_id driver ≫= page_load_timeout)) w) ;;
  outcome (be_get be url).

(** [WebDriverWait(driver, timeout).until(
       EC.presence_of_element_located((by, value)))] *)
Definition wait_until_presence (driver : WebDriver) (timeout : Z)
    (by_ value : string) : M World unit :=
  emit (EvWaitUntil (session_id driver) timeout by_ value) ;;
  outcome (be_until be timeout by_ value).

(** [driver.page_source] *)
Definition page_source (driver : WebDriver) : M World string :=
  emit (EvPageSource (session_id driver)) ;;
  match be_page_source be with
  | inl e => raise e
  | inr html => ret html
  end.

(** [driver.quit()]: the session leaves the hub's table when the call
    succeeds; a failed call leaves it registered. *)
Definition driver_quit (driver : WebDriver) : M World unit :=
  emit (EvQuit (session_id driver)) ;;
  outcome (be_quit be) ;;
  fun w =>
    (Return tt,
     {| sessions := delete (session_id driver) (sessions w);
        trace := trace w |}).

(** [By.TAG_NAME] *)
Definition By_TAG_NAME : string := "tag name".

(** [create_driver()], lines 24-58. *)
Definition create_driver : M World WebDriver :=
  try_except
    (driver <- webdriver_Remote SELENIUM_HUB_URL chrome_options ;;
     set_page_load_timeout driver 30 ;;
     ret driver)
    (fun e =>
       logger_error "Failed to create remote Chrome driver: " (inl e) ;;
       raise (HTTPException 500
                ("Failed to connect to remote browser at " +:+ SELENIUM_HUB_URL))).

(** The frame of one call of [fetch_page]: its local variable [driver] and
    the world it acts on. *)
Record Frame : Type := {
  driver : option WebDriver;
  world : World
}.

Definition lift {A} (m : M World A) : M Frame A :=
  fun f =>
    match m (world f) with
    | (r, w') => (r, {| driver := driver f; world := w' |})
    end.

Definition set_driver (d : option WebDriver) : M Frame unit :=
  fun f => (Return tt, {| driver := d; world := world f |}).

Definition get_driver : M Frame (option WebDriver) :=
  fun f => (Return (driver f), f).

(** The [try] block of [fetch_page], lines 80-94. *)
Definition fetch_body (url : string) : M Frame Response :=
  lift (logger_info "Fetching URL: " (inr url)) ;;
  d <- lift create_driver ;;
  set_driver (Some d) ;;
  lift (driver_get d url) ;;
  lift (wait_until_presence d 10 By_TAG_NAME "body") ;;
  page_source <- lift (page_source d) ;;
  lift (logger_info "Successfully fetched page: " (inr url)) ;;
  ret {| status := 200; body := Html page_source |}.

(** The [except] clauses, lines 96-106, tried in order. *)
Definition fetch_handlers (url : string) (e : exn) : M Frame Response :=
  if is_TimeoutException e then
    lift (logger_error "Timeout while loading page: " (inr url)) ;;
    raise (HTTPException 408 "Page load timeout")
  else if is_WebDriverException e then
    lift (logger_error "Selenium WebDriver error: " (inl e)) ;;
    raise (HTTPException 500 "Browser error occurred")
  else
    lift (logger_error "Unexpected error: " (inl e)) ;;
    raise (HTTPException 500 "Internal server error").

(** The [finally] block, lines 108-114. *)
Definition fetch_finally : M Frame unit :=
  d <- get_driver ;;
  match d with
  | Some drv =>
      try_except
        (lift (driver_quit drv))
        (fun e => lift (logger_warning "Error closing driver: " (inl e)))
  | None => ret tt
  end.

(** The [try] statement of [fetch_page], lines 79-114. *)
Definition fetch_try (url : string) : M Frame Response :=
  try_finally
    (try_except (fetch_body url) (fetch_handlers url))
    fetch_finally.

(** [fetch_page(url)], lines 61-114. *)
Definition fetch_page (url : string) : M Frame Response :=
  if is_empty url then
    raise (HTTPException 400 "URL parameter is required")
  else if negb (startswith url "http://" || startswith url "https://") then
    raise (HTTPException 400 "URL must start with http:// or https://")
  else
    set_driver None ;;
    fetch_try url.

(** [health_check()], lines 116-119. *)
Definition health_check : M Frame Response :=
  ret {| status := 200;
         body := Dict [("status", "healthy"); ("service", "selenium-scraper")] |}.

(** [info()], lines 121-130. *)
Definition info : M Frame Response :=
  ret {| status := 200;
         body := Dict [ ("title", "Selenium Web Scraper");
                        ("description",
                         "FastAPI server that fetches web pages using Selenium");
                        ("selenium_hub", SELENIUM_HUB_URL);
                        ("usage", "GET /?url=<target_url>");
                        ("example", "/?url=https://example.com") ] |}.

(** What FastAPI sends for the outcome of a handler: the returned response,
    the status and detail of an [HTTPException], and a bare 500 for any
    other exception. *)
Definition render (r : result Response) : Response :=
  match r with
  | Return resp => resp
  | Raise (HTTPException code detail) => {| status := code; body := Detail detail |}
  | Raise _ => {| status := 500; body := PlainText "Internal Server Error" |}
  end.

Definition serve (h : M Frame Response) (w : World) : Response * World :=
  match h {| driver := None; world := w |} with
  | (r, f) => (render r, world f)
  end.

(** The three [@app.get] routes.  The fetch route declares
    [url: str = Query(...)]: the parameter is required, and FastAPI answers
    a request that lacks it with 422 without calling the handler. *)
Inductive Request : Type :=
| GetRoot (url : option string)
| GetHealth
| GetInfo.

Definition app (req : Request) (w : World) : Response * World :=
  match req with
  | GetRoot None =>
      ({| status := 422; body := ValidationError ["query"; "url"] |}, w)
  | GetRoot (Some url) => serve (fetch_page url) w
  | GetHealth => serve health_check w
  | GetInfo => serve info w
  end.

End App.
End Main.

(** * Properties *)

(** ** Concrete inputs used by the examples *)

Definition default_hub : string := "http://localhost:4444/wd/hub".

Definition empty_world : World := {| sessions := ∅; trace := [] |}.

(** A hub on which every call succeeds and the page is [html]. *)
Definition backend_ok (html : string) : Backend := {|
  be_new_session := fun _ _ => None;
  be_set_page_load_timeout := fun _ => None;
  be_get := fun _ => None;
  be_until := fun _ _ _ => None;
  be_page_source := inr html;
  be_quit := None
|}.

Definition hello_hub : Backend := backend_ok "<body>Hello</body>".

(** A hub that cannot be reached. *)
Definition backend_unreachable : Backend := {|
  be_new_session := fun _ _ => Some (WebDriverException "connection refused");
  be_set_page_load_timeout := fun _ => None;
  be_get := fun _ => None;
  be_until := fun _ _ _ => None;
  be_page_source := inl (WebDriverException "connection refused");
  be_quit := None
|}.

Definition with_get (b : Backend) (o : option exn) : Backend := {|
  be_new_session := be_new_session b;
  be_set_page_load_timeout := be_set_page_load_timeout b;
  be_get := fun _ => o;
  be_until := be_until b;
  be_page_source := be_page_source b;
  be_quit := be_quit b
|}.

Definition with_until (b : Backend) (o : option exn) : Backend := {|
  be_new_session := be_new_session b;
  be_set_page_load_timeout := be_set_page_load_timeout b;
  be_get := be_get b;
  be_until := fun _ _ _ => o;
  be_page_source := be_page_source b;
  be_quit := be_quit b
|}.

Definition with_quit (b : Backend) (o : option exn) : Backend := {|
  be_new_session := be_new_session b;
  be_set_page_load_timeout := be_set_page_load_timeout b;
  be_get := be_get b;
  be_until := be_until b;
  be_page_source := be_page_source b;
  be_quit := o
|}.

Definition with_new_session (b : Backend) (o : option exn) : Backend := {|
  be_new_session := fun _ _ => o;
  be_set_page_load_timeout := be_set_page_load_timeout b;
  be_get := be_get b;
  be_until := be_until b;
  be_page_source := be_page_source b;
  be_quit := be_quit b
|}.

Definition with_set_page_load_timeout (b : Backend) (o : option exn)
  : Backend := {|
  be_new_session := be_new_session b;
  be_set_page_load_timeout := fun _ => o;
  be_get := be_get b;
  be_until := be_until b;
  be_page_source := be_page_source b;
  be_quit := be_quit b
|}.

Definition with_page_source (b : Backend) (r : exn + string) : Backend := {|
  be_new_session := be_new_session b;
  be_set_page_load_timeout := be_set_page_load_timeout b;
  be_get := be_get b;
  be_until := be_until b;
  be_page_source := r;
  be_quit := be_quit b
|}.

(** ** Vocabulary of the statements *)

(** The test of line 75. *)
Definition has_http_scheme (url : string) : bool :=
  startswith url "http://" || startswith url "https://".

(** A query parameter that passes both checks of lines 71-76. *)
Definition passes_validation (url : option string) : bool :=
  match url with
  | None => false
  | Some u => negb (is_empty u) && has_http_scheme u
  end.

(** Ids of the sessions created, and of the sessions on which [quit] was
    called, newest first. *)
Fixpoint opened (tr : list event) : list nat :=
  match tr with
  | [] => []
  | EvSessionCreated sid :: tr' => sid :: opened tr'
  | _ :: tr' => opened tr'
  end.

Fixpoint close_attempts (tr : list event) : list nat :=
  match tr with
  | [] => []
  | EvQuit sid :: tr' => sid :: close_attempts tr'
  | _ :: tr' => close_attempts tr'
  end.

(** The timeouts an event carries are the two constants of the source. *)
Definition timeouts_fixed (ev : event) : bool :=
  match ev with
  | EvSetPageLoadTimeout _ t => Z.eqb t 30
  | EvGet _ _ t => match t with Some t' => Z.eqb t' 30 | None => false end
  | EvWaitUntil _ t _ _ => Z.eqb t 10
  | _ => true
  end.

Definition bad_request (detail : string) : Response :=
  {| status := 400; body := Detail detail |}.

Definition timeout_response : Response :=
  {| status := 408; body := Detail "Page load timeout" |}.

Definition internal_error : Response :=
  {| status := 500; body := Detail "Internal server error" |}.

(** The first failure among the three calls made on the driver, lines
    84-91, or the page source when all three succeed. *)
Definition session_result (be : Backend) (url : string) : exn + string :=
  match be_get be url with
  | Some e => inl e
  | None =>
      match be_until be 10 Main.By_TAG_NAME "body" with
      | Some e => inl e
      | None => be_page_source be
      end
  end.

(** The first failure inside [create_driver], lines 49-54. *)
Definition setup_failure (hub : string) (be : Backend) : option exn :=
  match be_new_session be hub Main.chrome_options with
  | Some e => Some e
  | None => be_set_page_load_timeout be 30
  end.

Definition browser_error : Response :=
  {| status := 500; body := Detail "Browser error occurred" |}.

Definition missing_parameter : Response :=
  {| status := 422; body := ValidationError ["query"; "url"] |}.

(** The error answers the fetch route can give. *)
Definition error_answers : list Response :=
  [ missing_parameter;
    bad_request "URL parameter is required";
    bad_request "URL must start with http:// or https://";
    timeout_response;
    browser_error;
    internal_error ].





(** ** Configuration *)

(** [os.getenv(key, default)] *)
Definition getenv (environ : gmap string string) (key default : string)
  : string :=
  match environ !! key with
  | Some v => v
  | None => default
  end.

(** Line 22: the hub address is read once, at import. *)
Definition SELENIUM_HUB_URL (environ : gmap string string) : string :=
  getenv environ "SELENIUM_HUB_URL" "http://localhost:4444/wd/hub".

(** The application as started in a given environment. *)
Definition app_in (environ : gmap string string) (be : Backend)
  : Main.Request -> World -> Response * World :=
  Main.app (SELENIUM_HUB_URL environ) be.

(** ** Symbolic execution *)

Ltac unfold_ops :=
  unfold Main.fetch_try, Main.fetch_body, Main.fetch_handlers,
    Main.fetch_finally, Main.create_driver, Main.webdriver_Remote,
    Main.set_page_load_timeout, Main.driver_get, Main.wait_until_presence,
    Main.page_source, Main.driver_quit, Main.logger_info,
    Main.logger_warning, Main.logger_error, Main.lift, Main.set_driver,
    Main.get_driver, try_finally, try_except, bind, ret, raise, emit.

Ltac step_backend :=
  match goal with
  | |- context [outcome ?o] => destruct o eqn:?; unfold outcome at 1; cbn
  | |- context [match be_page_source ?b with _ => _ end] =>
      destruct (be_page_source b) eqn:?; cbn
  | |- context [if is_TimeoutException ?e then _ else _] => destruct e; cbn
  end.

Section Validation.

Variable hub : string.
Variable be : Backend.

Lemma fetch_page_empty (f : Main.Frame) :
  Main.fetch_page hub be EmptyString f =
  (Raise (HTTPException 400 "URL parameter is required"), f).
Proof. reflexivity. Qed.

Lemma fetch_page_no_scheme (url : string) (f : Main.Frame) :
  is_empty url = false ->
  has_http_scheme url = false ->
  Main.fetch_page hub be url f =
  (Raise (HTTPException 400 "URL must start with http:// or https://"), f).
Proof.
  unfold Main.fetch_page, has_http_scheme. intros -> ->. reflexivity.
Qed.

Lemma fetch_page_valid (url : string) (f : Main.Frame) :
  passes_validation (Some url) = true ->
  Main.fetch_page hub be url f =
  Main.fetch_try hub be url {| Main.driver := None; Main.world := Main.world f |}.
Proof.
  unfold passes_validation, Main.fetch_page, has_http_scheme.
  intros [Hne Hs]%andb_prop. apply negb_true_iff in Hne.
  rewrite Hne, Hs. reflexivity.
Qed.

Lemma empty_has_no_scheme (url : string) :
  is_empty url = true -> has_http_scheme url = false.
Proof. destruct url; [reflexivity | discriminate]. Qed.

End Validation.

(** ** The session table *)

Lemma fresh_session_unused (m : gmap nat Session) :
  m !! fresh (dom m) = None.
Proof. apply not_elem_of_dom, is_fresh. Qed.

(** The timeout a new session has once [set_page_load_timeout] went
    through. *)
Lemma timeout_in_force (m : gmap nat Session) (sid : nat) (s : Session) (t : Z) :
  alter (fun _ => {| page_load_timeout := Some t |}) sid (<[sid := s]> m)
    !! sid ≫= page_load_timeout = Some t.
Proof. rewrite lookup_alter_eq, lookup_insert_eq. reflexivity. Qed.

(** Creating a session under an unused id, configuring it and quitting it
    gives the table back. *)
Lemma session_released (m : gmap nat Session) (sid : nat) (s : Session)
    (f : Session -> Session) :
  m !! sid = None ->
  delete sid (alter f sid (<[sid := s]> m)) = m.
Proof.
  intros H. apply map_eq. intros i.
  destruct (decide (sid = i)) as [->|Hne].
  - rewrite lookup_delete_eq. congruence.
  - rewrite lookup_delete_ne, lookup_alter_ne, lookup_insert_ne by done.
    reflexivity.
Qed.

Lemma trace_extended (ev : event) (tr new old : list event) :
  tr = (new ++ old)%list -> ev :: tr = ((ev :: new) ++ old)%list.
Proof. intros ->. reflexivity. Qed.

Ltac trace_ext :=
  lazymatch goal with
  | |- ?t = (_ ++ ?t)%list => exact (eq_refl : t = ([] ++ t)%list)
  | |- _ :: _ = (_ ++ _)%list => apply trace_extended; trace_ext
  end.

(** ** Outcomes of the fetch route *)

Ltac run := unfold Main.serve; unfold_ops; cbn.
Ltac use H := rewrite H; cbn.

Section Fetch.

Variable hub : string.
Variable be : Backend.

Lemma app_valid (url : string) (w : World) :
  passes_validation (Some url) = true ->
  Main.app hub be (Main.GetRoot (Some url)) w =
  Main.serve (Main.fetch_try hub be url) w.
Proof.
  intros Hv. unfold Main.app, Main.serve.
  rewrite (fetch_page_valid hub be url _ Hv). reflexivity.
Qed.

(** [create_driver] when the hub refuses the session: the exception it
    raises carries the hub address, and no session exists. *)
Lemma create_driver_refused (w : World) (e : exn) :
  be_new_session be hub Main.chrome_options = Some e ->
  Main.create_driver hub be w =
  (Raise (HTTPException 500
            ("Failed to connect to remote browser at " +:+ hub)),
   {| sessions := sessions w;
      trace := EvLog ERROR "Failed to create remote Chrome driver: " (inl e)
               :: EvRemote hub Main.chrome_options :: trace w |}).
Proof.
  intros H. unfold_ops. cbn. rewrite H. reflexivity.
Qed.

(** [create_driver] when both of its remote calls succeed. *)
Lemma create_driver_returns (w : World) :
  be_new_session be hub Main.chrome_options = None ->
  be_set_page_load_timeout be 30 = None ->
  let sid := fresh (dom (sessions w)) in
  Main.create_driver hub be w =
  (Return {| session_id := sid |},
   {| sessions := <[sid := {| page_load_timeout := Some 30 |}]> (sessions w);
      trace := EvSetPageLoadTimeout sid 30 :: EvSessionCreated sid
               :: EvRemote hub Main.chrome_options :: trace w |}).
Proof.
  intros H1 H2. unfold_ops. cbn. rewrite H1. cbn. rewrite H2. cbn.
  do 2 f_equal. f_equal.
  apply map_eq. intros i. rewrite lookup_alter, !lookup_insert.
  repeat case_decide; done.
Qed.


(** A refused session: the handler answers with its generic 500, and the
    world gains log entries only. *)
Lemma refused_gives_internal_error (url : string) (w : World) (e : exn) :
  passes_validation (Some url) = true ->
  be_new_session be hub Main.chrome_options = Some e ->
  Main.app hub be (Main.GetRoot (Some url)) w =
  (internal_error,
   {| sessions := sessions w;
      trace :=
        EvLog ERROR "Unexpected error: "
          (inl (HTTPException 500
                  ("Failed to connect to remote browser at " +:+ hub)))
        :: EvLog ERROR "Failed to create remote Chrome driver: " (inl e)
        :: EvRemote hub Main.chrome_options
        :: EvLog INFO "Fetching URL: " (inr url) :: trace w |}).
Proof.
  intros Hv Hn. rewrite (app_valid url w Hv). run. use Hn. reflexivity.
Qed.

(** [set_page_load_timeout] failing inside [create_driver]: the session was
    created, [driver] is still [None] in [fetch_page], and [quit] is never
    called. *)
Lemma timeout_setup_failure_leaks (url : string) (w : World) (e : exn) :
  passes_validation (Some url) = true ->
  be_new_session be hub Main.chrome_options = None ->
  be_set_page_load_timeout be 30 = Some e ->
  let w' := snd (Main.app hub be (Main.GetRoot (Some url)) w) in
  fst (Main.app hub be (Main.GetRoot (Some url)) w) = internal_error /\
  opened (trace w') = fresh (dom (sessions w)) :: opened (trace w) /\
  close_attempts (trace w') = close_attempts (trace w) /\
  is_Some (sessions w' !! fresh (dom (sessions w))).
Proof.
  intros Hv Hn Hs. rewrite (app_valid url w Hv). run. use Hn. use Hs.
  repeat split. rewrite lookup_insert_eq. eauto.
Qed.

Lemma get_timeout_gives_408 (url : string) (w : World) (msg : string) :
  passes_validation (Some url) = true ->
  be_new_session be hub Main.chrome_options = None ->
  be_set_page_load_timeout be 30 = None ->
  be_get be url = Some (TimeoutException msg) ->
  fst (Main.app hub be (Main.GetRoot (Some url)) w) = timeout_response.
Proof.
  intros Hv Hn Hs Hg. rewrite (app_valid url w Hv). run.
  use Hn. use Hs. use Hg. destruct (be_quit be); reflexivity.
Qed.

Lemma until_timeout_gives_408 (url : string) (w : World) (msg : string) :
  passes_validation (Some url) = true ->
  be_new_session be hub Main.chrome_options = None ->
  be_set_page_load_timeout be 30 = None ->
  be_get be url = None ->
  be_until be 10 Main.By_TAG_NAME "body" = Some (TimeoutException msg) ->
  fst (Main.app hub be (Main.GetRoot (Some url)) w) = timeout_response.
Proof.
  intros Hv Hn Hs Hg Hu. rewrite (app_valid url w Hv). run.
  use Hn. use Hs. use Hg. use Hu. destruct (be_quit be); reflexivity.
Qed.


(** A run in which every remote call succeeds: the answer is the page
    source, and navigation and the wait are recorded with their timeouts. *)
Lemma fetch_success (url : string) (w : World) (html : string) :
  passes_validation (Some url) = true ->
  be_new_session be hub Main.chrome_options = None ->
  be_set_page_load_timeout be 30 = None ->
  be_get be url = None ->
  be_until be 10 Main.By_TAG_NAME "body" = None ->
  be_page_source be = inr html ->
  let sid := fresh (dom (sessions w)) in
  fst (Main.app hub be (Main.GetRoot (Some url)) w)
  = {| status := 200; body := Html html |} /\
  In (EvGet sid url (Some 30))
     (trace (snd (Main.app hub be (Main.GetRoot (Some url)) w))) /\
  In (EvWaitUntil sid 10 Main.By_TAG_NAME "body")
     (trace (snd (Main.app hub be (Main.GetRoot (Some url)) w))).
Proof.
  intros Hv Hn Hs Hg Hu Hp. rewrite (app_valid url w Hv). run.
  use Hn. use Hs. rewrite timeout_in_force. use Hg. use Hu. use Hp.
  destruct (be_quit be); cbn; intuition.
Qed.

End Fetch.

(** The whole run on a hub where everything succeeds. *)
Example fetch_hello :
  Main.app default_hub hello_hub
    (Main.GetRoot (Some "https://example.com")) empty_world
  = ({| status := 200; body := Html "<body>Hello</body>" |},
     {| sessions := ∅;
        trace :=
          [ EvQuit 0;
            EvLog INFO "Successfully fetched page: " (inr "https://example.com");
            EvPageSource 0;
            EvWaitUntil 0 10 "tag name" "body";
            EvGet 0 "https://example.com" (Some 30);
            EvSetPageLoadTimeout 0 30;
            EvSessionCreated 0;
            EvRemote default_hub Main.chrome_options;
            EvLog INFO "Fetching URL: " (inr "https://example.com") ] |}).
Proof. vm_compute. reflexivity. Qed.

(** ** The URL checks *)

(** C1 (amended).  A supplied but empty [url] is answered with 400 and
    detail "URL parameter is required"; a request without the parameter
    never reaches the handler, FastAPI answers it with 422. *)
Theorem url_required (hub : string) (be : Backend) (w : World) :
  fst (Main.app hub be (Main.GetRoot (Some EmptyString)) w)
  = bad_request "URL parameter is required" /\
  fst (Main.app hub be (Main.GetRoot None) w)
  = {| status := 422; body := ValidationError ["query"; "url"] |}.
Proof. split; reflexivity. Qed.

(** C1 as stated fails: a request with no [url] parameter does not get
    status 400. *)
Lemma missing_url_is_not_400 :
  status (fst (Main.app default_hub hello_hub (Main.GetRoot None)
                 empty_world)) <> 400.
Proof. discriminate. Qed.

(** C3 (amended).  A supplied [url] that starts with neither scheme is
    answered with 400; the detail is "URL must start with http:// or
    https://" when the url is not empty and "URL parameter is required"
    when it is. *)
Theorem url_without_scheme_rejected (hub : string) (be : Backend)
    (url : string) (w : World) :
  has_http_scheme url = false ->
  fst (Main.app hub be (Main.GetRoot (Some url)) w)
  = bad_request (if is_empty url then "URL parameter is required"
                 else "URL must start with http:// or https://").
Proof.
  intros Hs. unfold Main.app, Main.serve.
  destruct (is_empty url) eqn:He.
  - destruct url; [reflexivity | discriminate].
  - rewrite (fetch_page_no_scheme hub be url _ He Hs). reflexivity.
Qed.

Lemma url_without_scheme_rejected_witness :
  has_http_scheme "ftp://example.com" = false /\
  fst (Main.app default_hub hello_hub
         (Main.GetRoot (Some "ftp://example.com")) empty_world)
  = bad_request "URL must start with http:// or https://".
Proof.
  split; [reflexivity |].
  apply (url_without_scheme_rejected default_hub hello_hub
           "ftp://example.com" empty_world).
  reflexivity.
Defined.

(** C3 as stated fails on the empty url: it starts with neither scheme,
    and the detail of the 400 is not the scheme message. *)
Lemma empty_url_has_other_detail :
  has_http_scheme EmptyString = false /\
  fst (Main.app default_hub hello_hub (Main.GetRoot (Some EmptyString))
         empty_world)
  <> bad_request "URL must start with http:// or https://".
Proof. split; [reflexivity | discriminate]. Qed.

Lemma rejected_request_answer (hub : string) (be : Backend)
    (url : option string) (w : World) :
  passes_validation url = false ->
  Main.app hub be (Main.GetRoot url) w =
  (match url with
   | None => {| status := 422; body := ValidationError ["query"; "url"] |}
   | Some u =>
       bad_request (if is_empty u then "URL parameter is required"
                    else "URL must start with http:// or https://")
   end, w).
Proof.
  destruct url as [u|]; [| reflexivity].
  unfold passes_validation, Main.app, Main.serve. intros Hv.
  destruct (is_empty u) eqn:He.
  - destruct u; [reflexivity | discriminate].
  - cbn in Hv.
    rewrite (fetch_page_no_scheme hub be u _ He Hv). reflexivity.
Qed.

(** C9 (amended).  A request that fails validation leaves the world as it
    was: nothing is logged, no session is created, the hub is not called.
    The answer is 400 for an empty or wrongly prefixed url and 422 for a
    missing one. *)
Theorem invalid_request_touches_nothing (hub : string) (be : Backend)
    (url : option string) (w : World) :
  passes_validation url = false ->
  snd (Main.app hub be (Main.GetRoot url) w) = w /\
  status (fst (Main.app hub be (Main.GetRoot url) w))
  = match url with Some _ => 400 | None => 422 end.
Proof.
  intros Hv. rewrite (rejected_request_answer hub be url w Hv).
  destruct url; split; reflexivity.
Qed.

Lemma invalid_request_touches_nothing_witness :
  passes_validation (Some "ftp://example.com") = false /\
  snd (Main.app default_hub hello_hub
         (Main.GetRoot (Some "ftp://example.com")) empty_world)
  = empty_world /\
  status (fst (Main.app default_hub hello_hub
                 (Main.GetRoot (Some "ftp://example.com")) empty_world))
  = 400.
Proof.
  split; [reflexivity |].
  apply (invalid_request_touches_nothing default_hub hello_hub
           (Some "ftp://example.com") empty_world).
  reflexivity.
Defined.

(** C9 as stated fails on a missing parameter: validation fails, and the
    early answer is not a 400. *)
Lemma missing_url_early_answer_is_422 :
  passes_validation None = false /\
  snd (Main.app default_hub hello_hub (Main.GetRoot None) empty_world)
  = empty_world /\
  status (fst (Main.app default_hub hello_hub (Main.GetRoot None)
                 empty_world)) <> 400.
Proof. repeat split. discriminate. Qed.

(** ** The health route *)

(** C7.  [GET /health] answers 200 with the fixed payload whatever the hub
    does, and leaves the world untouched: no call reaches the hub. *)
Theorem health_always_200 (hub : string) (be : Backend) (w : World) :
  Main.app hub be Main.GetHealth w =
  ({| status := 200;
      body := Dict [("status", "healthy"); ("service", "selenium-scraper")] |},
   w).
Proof. unfold Main.app, Main.serve. destruct w. reflexivity. Qed.

(** ** Failures of the remote session *)

(** What [create_driver] puts in its own exception: the hub address is part
    of the detail. *)
Lemma prefix_refl (s : string) : String.prefix s s = true.
Proof.
  induction s as [| a s IH]; [reflexivity |].
  cbn. destruct (Ascii.ascii_dec a a); [assumption | contradiction].
Qed.

Lemma contains_refl (s : string) : contains s s = true.
Proof.
  destruct s as [| a s]; [reflexivity |].
  change (String.prefix (String a s) (String a s)
          || contains s (String a s) = true).
  rewrite prefix_refl. reflexivity.
Qed.

Lemma contains_suffix (p s : string) : contains (p +:+ s) s = true.
Proof.
  induction p as [| c p IH].
  - apply contains_refl.
  - change (String.prefix s (String c (p +:+ s))
            || contains (p +:+ s) s = true).
    rewrite IH. apply orb_true_r.
Qed.

Lemma create_driver_names_hub (hub : string) (be : Backend) (w : World) (e : exn) :
  be_new_session be hub Main.chrome_options = Some e ->
  exists detail,
    fst (Main.create_driver hub be w) = Raise (HTTPException 500 detail) /\
    contains detail hub = true.
Proof.
  intros H. rewrite (create_driver_refused hub be w e H).
  eexists. split; [reflexivity | apply contains_suffix].
Qed.

(** C2 (defect).  With the hub refusing the session, [create_driver] raises
    a 500 whose detail names the hub, but it does so inside the [try] of
    [fetch_page]: the last [except] clause replaces it, and the answer is
    500 "Internal server error", which does not name the hub. *)
Theorem refused_session_detail_lost :
  fst (Main.app default_hub backend_unreachable
         (Main.GetRoot (Some "https://example.com")) empty_world)
  = internal_error /\
  contains "Internal server error" default_hub = false /\
  exists detail,
    fst (Main.create_driver default_hub backend_unreachable empty_world)
    = Raise (HTTPException 500 detail) /\
    contains detail default_hub = true.
Proof.
  split; [| split].
  - erewrite refused_gives_internal_error; reflexivity.
  - vm_compute. reflexivity.
  - eapply create_driver_names_hub. reflexivity.
Qed.

(** C4.  When the wait for the [body] element raises [TimeoutException],
    the answer is 408. *)
Theorem readiness_timeout_is_408 (hub : string) (be : Backend) (url : string)
    (w : World) (msg : string) :
  passes_validation (Some url) = true ->
  be_new_session be hub Main.chrome_options = None ->
  be_set_page_load_timeout be 30 = None ->
  be_get be url = None ->
  be_until be 10 Main.By_TAG_NAME "body" = Some (TimeoutException msg) ->
  status (fst (Main.app hub be (Main.GetRoot (Some url)) w)) = 408.
Proof.
  intros Hv Hn Hs Hg Hu.
  rewrite (until_timeout_gives_408 hub be url w msg Hv Hn Hs Hg Hu).
  reflexivity.
Qed.

Lemma readiness_timeout_is_408_witness :
  status (fst (Main.app default_hub
                 (with_until hello_hub (Some (TimeoutException "timed out")))
                 (Main.GetRoot (Some "https://example.com")) empty_world))
  = 408.
Proof.
  apply (readiness_timeout_is_408 default_hub
           (with_until hello_hub (Some (TimeoutException "timed out")))
           "https://example.com" empty_world "timed out");
    reflexivity.
Defined.

(** C10.  When [driver.get] raises [TimeoutException], the answer is 408
    with detail "Page load timeout", and it is the answer of any run in
    which the wait for [body] times out instead. *)
Theorem navigation_timeout_is_408 (hub : string) (be : Backend) (url : string)
    (w : World) (msg : string) :
  passes_validation (Some url) = true ->
  be_new_session be hub Main.chrome_options = None ->
  be_set_page_load_timeout be 30 = None ->
  be_get be url = Some (TimeoutException msg) ->
  fst (Main.app hub be (Main.GetRoot (Some url)) w)
  = {| status := 408; body := Detail "Page load timeout" |} /\
  forall (msg' : string) (w' : World),
    fst (Main.app hub (with_until (with_get be None)
                         (Some (TimeoutException msg')))
           (Main.GetRoot (Some url)) w')
    = fst (Main.app hub be (Main.GetRoot (Some url)) w).
Proof.
  intros Hv Hn Hs Hg.
  rewrite (get_timeout_gives_408 hub be url w msg Hv Hn Hs Hg).
  split; [reflexivity |]. intros msg' w'.
  apply (until_timeout_gives_408 hub _ url w' msg'); assumption || reflexivity.
Qed.

Lemma navigation_timeout_is_408_witness :
  fst (Main.app default_hub
         (with_get hello_hub (Some (TimeoutException "timed out")))
         (Main.GetRoot (Some "https://example.com")) empty_world)
  = {| status := 408; body := Detail "Page load timeout" |}.
Proof.
  refine (proj1 (navigation_timeout_is_408 default_hub
                   (with_get hello_hub (Some (TimeoutException "timed out")))
                   "https://example.com" empty_world "timed out" _ _ _ _));
    reflexivity.
Defined.

(** ** One session per request *)

Ltac run_all :=
  unfold Main.serve; unfold_ops; cbn;
  repeat (step_backend; try rewrite timeout_in_force).

(** C5 (amended).  When the request passes validation and [create_driver]
    returns a driver, the run creates exactly one session, under an id
    that was not in use, and calls [quit] exactly once, on that session,
    whatever navigation, the wait and the read do; when that [quit]
    succeeds the session table is what it was before the request. *)
Theorem one_session_opened_and_closed (hub : string) (be : Backend)
    (url : string) (w : World) :
  passes_validation (Some url) = true ->
  be_new_session be hub Main.chrome_options = None ->
  be_set_page_load_timeout be 30 = None ->
  let w' := snd (Main.app hub be (Main.GetRoot (Some url)) w) in
  let sid := fresh (dom (sessions w)) in
  sessions w !! sid = None /\
  opened (trace w') = sid :: opened (trace w) /\
  close_attempts (trace w') = sid :: close_attempts (trace w) /\
  (be_quit be = None -> sessions w' = sessions w).
Proof.
  intros Hv Hn Hs. rewrite (app_valid hub be url w Hv).
  split; [apply fresh_session_unused |].
  run. use Hn. use Hs.
  repeat step_backend;
    (split; [reflexivity | split; [reflexivity |]]);
    intros Hq; try discriminate;
    apply session_released, fresh_session_unused.
Qed.

Lemma one_session_opened_and_closed_witness :
  let w' := snd (Main.app default_hub hello_hub
                   (Main.GetRoot (Some "https://example.com")) empty_world) in
  opened (trace w') = [fresh (dom (sessions empty_world))] /\
  close_attempts (trace w') = [fresh (dom (sessions empty_world))] /\
  sessions w' = sessions empty_world.
Proof.
  destruct (one_session_opened_and_closed default_hub
              hello_hub "https://example.com"
              empty_world eq_refl eq_refl eq_refl) as (_ & Ho & Hc & Hq).
  split; [exact Ho | split; [exact Hc | exact (Hq eq_refl)]].
Defined.

(** C5 as stated fails: a request rejected by validation opens no
    session and attempts no close. *)
Lemma rejected_request_opens_no_session :
  let w' := snd (Main.app default_hub hello_hub
                   (Main.GetRoot (Some "ftp://example.com")) empty_world) in
  length (opened (trace w')) <> 1%nat /\
  length (close_attempts (trace w')) <> 1%nat.
Proof. split; discriminate. Qed.

(** A refused session is the other way to open none. *)
Lemma refused_session_opens_none (hub : string) (be : Backend) (url : string)
    (w : World) (e : exn) :
  passes_validation (Some url) = true ->
  be_new_session be hub Main.chrome_options = Some e ->
  let w' := snd (Main.app hub be (Main.GetRoot (Some url)) w) in
  opened (trace w') = opened (trace w) /\
  close_attempts (trace w') = close_attempts (trace w) /\
  sessions w' = sessions w.
Proof.
  intros Hv Hn. rewrite (refused_gives_internal_error hub be url w e Hv Hn).
  repeat split.
Qed.

(** ** Teardown *)

Lemma finally_returns (be : Backend) (f : Main.Frame) :
  fst (Main.fetch_finally be f) = Return tt.
Proof.
  unfold_ops. destruct (Main.driver f); cbn; [| reflexivity].
  destruct (be_quit be); reflexivity.
Qed.

(** C6.  The outcome of [quit] has no influence on the answer: replacing it
    by any other outcome, success included, gives the same response on
    every route; and the [finally] block itself always returns normally. *)
Theorem close_failure_never_changes_outcome (hub : string) (be : Backend)
    (o : option exn) (req : Main.Request) (w : World) :
  fst (Main.app hub (with_quit be o) req w) = fst (Main.app hub be req w) /\
  forall f : Main.Frame, fst (Main.fetch_finally be f) = Return tt.
Proof.
  split; [| apply finally_returns].
  destruct req as [[url |] | |]; try reflexivity.
  destruct (passes_validation (Some url)) eqn:Hv.
  - rewrite !app_valid by assumption. run_all; destruct o; reflexivity.
  - unfold Main.app, Main.serve, Main.fetch_page.
    unfold passes_validation, has_http_scheme in Hv.
    destruct (is_empty url); [reflexivity |].
    cbn in Hv. rewrite Hv. reflexivity.
Qed.

(** ** The two timeouts *)

(** C8.  Every event a fetch request adds to the trace carries the fixed
    constants: the page-load timeout set on the session is 30, the timeout
    in force on the session when [get] is called is 30, and the wait for
    [body] is created with timeout 10. *)
Theorem timeouts_are_fixed (hub : string) (be : Backend) (url : option string)
    (w : World) :
  exists new : list event,
    trace (snd (Main.app hub be (Main.GetRoot url) w)) = (new ++ trace w)%list /\
    forallb timeouts_fixed new = true.
Proof.
  destruct url as [url |]; [| exists []; split; reflexivity].
  destruct (passes_validation (Some url)) eqn:Hv.
  - rewrite app_valid by assumption.
    run_all; eexists; (split; [trace_ext | reflexivity]).
  - exists [].
    rewrite (rejected_request_answer hub be (Some url) w Hv).
    split; reflexivity.
Qed.

(** * Further properties of the handlers *)

(** ** The answer of a request that has a driver *)

Lemma response_with_driver (hub : string) (be : Backend) (url : string)
    (w : World) :
  passes_validation (Some url) = true ->
  setup_failure hub be = None ->
  fst (Main.app hub be (Main.GetRoot (Some url)) w)
  = match session_result be url with
    | inr html => {| status := 200; body := Html html |}
    | inl e =>
        if is_TimeoutException e then timeout_response
        else if is_WebDriverException e then browser_error
        else internal_error
    end.
Proof.
  unfold setup_failure, session_result. intros Hv Hs.
  destruct (be_new_session be hub Main.chrome_options) eqn:Hn;
    [discriminate |].
  rewrite (app_valid hub be url w Hv). run. use Hn. use Hs.
  repeat step_backend; destruct (be_quit be); reflexivity.
Qed.

Lemma response_without_driver (hub : string) (be : Backend) (url : string)
    (w : World) (e : exn) :
  passes_validation (Some url) = true ->
  setup_failure hub be = Some e ->
  fst (Main.app hub be (Main.GetRoot (Some url)) w) = internal_error.
Proof.
  unfold setup_failure. intros Hv Hs.
  destruct (be_new_session be hub Main.chrome_options) eqn:Hn.
  - rewrite (refused_gives_internal_error hub be url w _ Hv Hn). reflexivity.
  - apply (timeout_setup_failure_leaks hub be url w e Hv Hn Hs).
Qed.




(** X3.  A [TimeoutException] from any of the three calls made on the
    driver, the read of the page source included, is answered with 408
    "Page load timeout". *)
Theorem any_driver_timeout_is_408 (hub : string) (be : Backend)
    (url : string) (w : World) (msg : string) :
  passes_validation (Some url) = true ->
  setup_failure hub be = None ->
  session_result be url = inl (TimeoutException msg) ->
  fst (Main.app hub be (Main.GetRoot (Some url)) w) = timeout_response.
Proof.
  intros Hv Hs Hr. rewrite (response_with_driver hub be url w Hv Hs), Hr.
  reflexivity.
Qed.

Lemma any_driver_timeout_is_408_witness :
  fst (Main.app default_hub
         (with_page_source hello_hub (inl (TimeoutException "timed out")))
         (Main.GetRoot (Some "https://example.com")) empty_world)
  = timeout_response.
Proof.
  apply (any_driver_timeout_is_408 default_hub
           (with_page_source hello_hub (inl (TimeoutException "timed out")))
           "https://example.com" empty_world "timed out");
    reflexivity.
Defined.

(** X4.  A [WebDriverException] that is not a timeout, raised by
    navigation, the wait or the read, is answered with 500 "Browser error
    occurred"; the message of the exception is not part of the answer. *)
Theorem browser_failure_is_500 (hub : string) (be : Backend)
    (url : string) (w : World) (msg : string) :
  passes_validation (Some url) = true ->
  setup_failure hub be = None ->
  session_result be url = inl (WebDriverException msg) ->
  fst (Main.app hub be (Main.GetRoot (Some url)) w) = browser_error.
Proof.
  intros Hv Hs Hr. rewrite (response_with_driver hub be url w Hv Hs), Hr.
  reflexivity.
Qed.

Lemma browser_failure_is_500_witness :
  fst (Main.app default_hub
         (with_get hello_hub (Some (WebDriverException "net::ERR_FAILED")))
         (Main.GetRoot (Some "https://example.com")) empty_world)
  = browser_error.
Proof.
  apply (browser_failure_is_500 default_hub
           (with_get hello_hub (Some (WebDriverException "net::ERR_FAILED")))
           "https://example.com" empty_world "net::ERR_FAILED");
    reflexivity.
Defined.

(** X5.  Any other exception raised by navigation, the wait or the read is
    answered with 500 "Internal server error". *)
Theorem unexpected_failure_is_500 (hub : string) (be : Backend)
    (url : string) (w : World) (e : exn) :
  passes_validation (Some url) = true ->
  setup_failure hub be = None ->
  session_result be url = inl e ->
  is_WebDriverException e = false ->
  fst (Main.app hub be (Main.GetRoot (Some url)) w) = internal_error.
Proof.
  intros Hv Hs Hr He. rewrite (response_with_driver hub be url w Hv Hs), Hr.
  destruct e; try discriminate; reflexivity.
Qed.

Lemma unexpected_failure_is_500_witness :
  fst (Main.app default_hub
         (with_until hello_hub (Some (OtherException "broken pipe")))
         (Main.GetRoot (Some "https://example.com")) empty_world)
  = internal_error.
Proof.
  apply (unexpected_failure_is_500 default_hub
           (with_until hello_hub (Some (OtherException "broken pipe")))
           "https://example.com" empty_world (OtherException "broken pipe"));
    reflexivity.
Defined.

(** X6.  A failure inside [create_driver] is answered with 500 "Internal
    server error" whatever its class: a [TimeoutException] raised while the
    session is created or configured does not give 408. *)
Theorem setup_failure_is_always_500 (hub : string) (be : Backend)
    (url : string) (w : World) (e : exn) :
  passes_validation (Some url) = true ->
  setup_failure hub be = Some e ->
  fst (Main.app hub be (Main.GetRoot (Some url)) w) = internal_error.
Proof. apply response_without_driver. Qed.

Lemma setup_failure_is_always_500_witness :
  fst (Main.app default_hub
         (with_new_session hello_hub (Some (TimeoutException "timed out")))
         (Main.GetRoot (Some "https://example.com")) empty_world)
  = internal_error.
Proof.
  apply (setup_failure_is_always_500 default_hub
           (with_new_session hello_hub (Some (TimeoutException "timed out")))
           "https://example.com" empty_world (TimeoutException "timed out"));
    reflexivity.
Defined.

(** ** Sessions and the hub's table *)

Lemma alter_new_session (m : gmap nat Session) (sid : nat) (s : Session)
    (f : Session -> Session) :
  alter f sid (<[sid := s]> m) = <[sid := f s]> m.
Proof.
  apply map_eq. intros i. destruct (decide (sid = i)) as [-> | Hne].
  - rewrite lookup_alter_eq, !lookup_insert_eq. reflexivity.
  - rewrite lookup_alter_ne, !lookup_insert_ne by done. reflexivity.
Qed.

Ltac tidy_sessions :=
  rewrite ?session_released by apply fresh_session_unused;
  rewrite ?alter_new_session.

(** X7.  When [set_page_load_timeout] fails inside [create_driver], the
    session the hub has just created is never quit: the answer is 500, no
    [quit] is called, and the session is still in the hub's table after the
    request. *)
Theorem unconfigured_session_is_never_quit (hub : string) (be : Backend)
    (url : string) (w : World) (e : exn) :
  passes_validation (Some url) = true ->
  be_new_session be hub Main.chrome_options = None ->
  be_set_page_load_timeout be 30 = Some e ->
  let w' := snd (Main.app hub be (Main.GetRoot (Some url)) w) in
  let sid := fresh (dom (sessions w)) in
  status (fst (Main.app hub be (Main.GetRoot (Some url)) w)) = 500 /\
  opened (trace w') = sid :: opened (trace w) /\
  close_attempts (trace w') = close_attempts (trace w) /\
  sessions w !! sid = None /\
  sessions w' !! sid = Some {| page_load_timeout := None |}.
Proof.
  intros Hv Hn Hs. rewrite (app_valid hub be url w Hv). run. use Hn. use Hs.
  repeat split.
  - apply fresh_session_unused.
  - apply lookup_insert_eq.
Qed.

Lemma unconfigured_session_is_never_quit_witness :
  let be := with_set_page_load_timeout hello_hub
              (Some (WebDriverException "invalid argument")) in
  let w' := snd (Main.app default_hub be
                   (Main.GetRoot (Some "https://example.com")) empty_world) in
  length (opened (trace w')) = 1%nat /\
  close_attempts (trace w') = [].
Proof.
  destruct (unconfigured_session_is_never_quit default_hub
              (with_set_page_load_timeout hello_hub
                 (Some (WebDriverException "invalid argument")))
              "https://example.com" empty_world
              (WebDriverException "invalid argument")
              eq_refl eq_refl eq_refl) as (_ & Ho & Hc & _).
  split; [exact (f_equal (@length nat) Ho) | exact Hc].
Defined.

(** X8.  A request never touches a session it did not create: every
    session in the hub's table before the request is there afterwards,
    unchanged, and the only id that can be added is the one given to the
    request's own session.  This holds on every route and for every
    behaviour of the hub. *)
Theorem other_sessions_untouched (hub : string) (be : Backend)
    (req : Main.Request) (w : World) :
  let w' := snd (Main.app hub be req w) in
  sessions w ⊆ sessions w' /\
  dom (sessions w') ⊆ dom (sessions w) ∪ {[ fresh (dom (sessions w)) ]}.
Proof.
  assert (Hsame : sessions w ⊆ sessions w /\
                  dom (sessions w) ⊆
                  dom (sessions w) ∪ {[ fresh (dom (sessions w)) ]})
    by (split; [reflexivity | apply union_subseteq_l]).
  assert (Hnew : forall s : Session,
             sessions w ⊆ <[fresh (dom (sessions w)) := s]> (sessions w) /\
             dom (<[fresh (dom (sessions w)) := s]> (sessions w)) ⊆
             dom (sessions w) ∪ {[ fresh (dom (sessions w)) ]}).
  { intros s. split.
    - apply insert_subseteq, fresh_session_unused.
    - rewrite dom_insert_L, (comm_L (∪)). reflexivity. }
  destruct req as [url | |]; cbn zeta; [| exact Hsame | exact Hsame].
  destruct (passes_validation url) eqn:Hv.
  - destruct url as [url |]; [| discriminate].
    rewrite app_valid by assumption.
    run_all; tidy_sessions; solve [exact Hsame | apply Hnew].
  - rewrite (rejected_request_answer hub be url w Hv). exact Hsame.
Qed.

(** X9.  The answer depends on the request and on what the hub does during
    the request, never on what happened before: nothing is cached and no
    session is reused. *)
Theorem response_ignores_history (hub : string) (be : Backend)
    (req : Main.Request) (w w' : World) :
  fst (Main.app hub be req w) = fst (Main.app hub be req w').
Proof.
  destruct req as [url | |]; try reflexivity.
  destruct (passes_validation url) eqn:Hv.
  - destruct url as [url |]; [| discriminate].
    destruct (setup_failure hub be) as [e |] eqn:Hs.
    + rewrite !(response_without_driver hub be url _ e Hv Hs). reflexivity.
    + rewrite !(response_with_driver hub be url _ Hv Hs). reflexivity.
  - rewrite !(rejected_request_answer hub be url _ Hv). reflexivity.
Qed.

(** X10.  The fetch route has seven answers: the page source with status
    200, or one of six fixed error answers.  No exception message and no
    hub address ever reaches the client. *)
Theorem answers_are_fixed (hub : string) (be : Backend)
    (url : option string) (w : World) :
  (exists html : string,
     be_page_source be = inr html /\
     fst (Main.app hub be (Main.GetRoot url) w)
     = {| status := 200; body := Html html |}) \/
  In (fst (Main.app hub be (Main.GetRoot url) w)) error_answers.
Proof.
  destruct (passes_validation url) eqn:Hv.
  - destruct url as [url |]; [| discriminate].
    destruct (setup_failure hub be) as [e |] eqn:Hs.
    + right. rewrite (response_without_driver hub be url w e Hv Hs).
      cbn. tauto.
    + rewrite (response_with_driver hub be url w Hv Hs).
      unfold session_result.
      destruct (be_get be url) as [e |];
        [right; destruct e; cbn; tauto |].
      destruct (be_until be 10 Main.By_TAG_NAME "body") as [e |];
        [right; destruct e; cbn; tauto |].
      destruct (be_page_source be) as [e | html];
        [right; destruct e; cbn; tauto |].
      left. exists html. auto.
  - right. rewrite (rejected_request_answer hub be url w Hv).
    destruct url as [u |]; [destruct (is_empty u) |]; cbn; tauto.
Qed.

(** ** Teardown and the order of calls *)

(** X11.  When [quit] fails on a request that has a driver, the failure is
    logged as one warning carrying the exception, right after the call, and
    the session stays in the hub's table with its timeout of 30. *)
Theorem failed_quit_is_logged (hub : string) (be : Backend) (url : string)
    (w : World) (e : exn) :
  passes_validation (Some url) = true ->
  setup_failure hub be = None ->
  be_quit be = Some e ->
  let w' := snd (Main.app hub be (Main.GetRoot (Some url)) w) in
  let sid := fresh (dom (sessions w)) in
  (exists rest : list event,
     trace w' = EvLog WARNING "Error closing driver: " (inl e)
                :: EvQuit sid :: rest) /\
  sessions w' !! sid = Some {| page_load_timeout := Some 30 |}.
Proof.
  unfold setup_failure. intros Hv Hs Hq.
  destruct (be_new_session be hub Main.chrome_options) eqn:Hn;
    [discriminate |].
  rewrite (app_valid hub be url w Hv). run. use Hn. use Hs. rewrite Hq.
  repeat step_backend;
    tidy_sessions; (split; [eexists; reflexivity | apply lookup_insert_eq]).
Qed.

Lemma failed_quit_is_logged_witness :
  let be := with_quit hello_hub (Some (WebDriverException "session gone")) in
  let w' := snd (Main.app default_hub be
                   (Main.GetRoot (Some "https://example.com")) empty_world) in
  sessions w' !! fresh (dom (sessions empty_world))
  = Some {| page_load_timeout := Some 30 |}.
Proof.
  exact (proj2 (failed_quit_is_logged default_hub
                  (with_quit hello_hub
                     (Some (WebDriverException "session gone")))
                  "https://example.com" empty_world
                  (WebDriverException "session gone")
                  eq_refl eq_refl eq_refl)).
Defined.


(** X13.  [create_driver] has two outcomes.  Either it returns a driver
    whose session is in the hub's table with a page-load timeout of 30, or
    it raises [HTTPException] 500 whose detail ends with the hub address,
    after logging the cause as an error; no other exception leaves it. *)
Theorem create_driver_contract (hub : string) (be : Backend) (w : World) :
  match Main.create_driver hub be w with
  | (Return d, w') =>
      setup_failure hub be = None /\
      sessions w' !! session_id d = Some {| page_load_timeout := Some 30 |}
  | (Raise e, w') =>
      e = HTTPException 500
            ("Failed to connect to remote browser at " +:+ hub) /\
      exists cause : exn,
        setup_failure hub be = Some cause /\
        head (trace w')
        = Some (EvLog ERROR "Failed to create remote Chrome driver: "
                  (inl cause))
  end.
Proof.
  unfold setup_failure. unfold_ops. cbn.
  repeat step_backend; tidy_sessions.
  - split; [reflexivity | eauto].
  - split; [reflexivity | eauto].
  - split; [reflexivity | apply lookup_insert_eq].
Qed.



(** ** Configuration and the info route *)

(** X15.  The address [/info] reports as [selenium_hub] is the address every
    session request is sent to: the value of [SELENIUM_HUB_URL] in the
    environment, the empty string included, and
    [http://localhost:4444/wd/hub] when the variable is not set.  [/info]
    itself calls nothing. *)
Theorem info_reports_address_in_use (environ : gmap string string)
    (be : Backend) (url : string) (w : World) :
  passes_validation (Some url) = true ->
  let hub := match environ !! "SELENIUM_HUB_URL" with
             | Some v => v
             | None => "http://localhost:4444/wd/hub"
             end in
  (exists items : list (string * string),
     app_in environ be Main.GetInfo w
     = ({| status := 200; body := Dict items |}, w) /\
     In ("selenium_hub", hub) items) /\
  In (EvRemote hub Main.chrome_options)
     (trace (snd (app_in environ be (Main.GetRoot (Some url)) w))).
Proof.
  intros Hv. cbn zeta. unfold app_in, SELENIUM_HUB_URL, getenv. split.
  - eexists. split.
    + unfold Main.app, Main.serve. destruct w. reflexivity.
    + cbn. tauto.
  - rewrite app_valid by assumption.
    run_all; cbn; tauto.
Qed.

Lemma info_reports_address_in_use_witness :
  In (EvRemote "http://grid:4444/wd/hub" Main.chrome_options)
     (trace (snd (app_in {[ "SELENIUM_HUB_URL" := "http://grid:4444/wd/hub" ]}
                    hello_hub (Main.GetRoot (Some "https://example.com"))
                    empty_world))).
Proof.
  exact (proj2 (info_reports_address_in_use
                  {[ "SELENIUM_HUB_URL" := "http://grid:4444/wd/hub" ]}
                  hello_hub "https://example.com" empty_world eq_refl)).
Defined.

(** ** What validation lets through *)

Lemma startswith_iff (s p : string) :
  startswith s p = true <-> exists rest : string, s = p +:+ rest.
Proof.
  unfold startswith. revert s.
  induction p as [| c p IH]; intros s.
  - split; [intros _; exists s; reflexivity | destruct s; reflexivity].
  - destruct s as [| a s]; cbn.
    + split; [discriminate | intros [rest Hr]; discriminate].
    + destruct (Ascii.ascii_dec c a) as [-> | Hne].
      * rewrite IH. split; intros [rest Hr]; exists rest.
        -- now rewrite Hr.
        -- now injection Hr.
      * split; [discriminate |].
        intros [rest Hr]. injection Hr as Hc _. congruence.
Qed.

(** X16.  The hub is contacted exactly when the [url] parameter is supplied
    and begins with [http://] or [https://], in lower case; nothing else
    about the url is checked before the session is requested. *)
Theorem hub_contacted_iff_scheme (hub : string) (be : Backend)
    (url : option string) (w : World) :
  (exists new : list event,
     trace (snd (Main.app hub be (Main.GetRoot url) w))
     = (new ++ trace w)%list /\
     In (EvRemote hub Main.chrome_options) new) <->
  exists rest : string,
    url = Some ("http://" +:+ rest) \/ url = Some ("https://" +:+ rest).
Proof.
  split.
  - intros (new & Ht & Hin).
    destruct (passes_validation url) eqn:Hv.
    + destruct url as [u |]; [| discriminate].
      apply andb_prop in Hv as [_ Hs]. unfold has_http_scheme in Hs.
      apply orb_prop in Hs as [Hs | Hs];
        apply startswith_iff in Hs as [rest ->]; exists rest; auto.
    + rewrite (rejected_request_answer hub be url w Hv) in Ht. cbn in Ht.
      apply (app_inv_tail (trace w) [] new) in Ht. subst new. destruct Hin.
  - intros [rest Hu].
    assert (Hv : passes_validation url = true).
    { unfold passes_validation, has_http_scheme.
      destruct Hu as [-> | ->]; apply andb_true_intro;
        (split; [reflexivity | apply orb_true_iff]);
        [left | right]; apply startswith_iff; eauto. }
    destruct url as [u |]; [| discriminate].
    rewrite app_valid by assumption.
    run_all; eexists; (split; [trace_ext | cbn; tauto]).
Qed.
